(** * The Keras Tuner documentation tree ([scripts/kt_api_master.py])

    The module is four dictionary literals.  Python values are embedded as a
    small inductive type: strings, booleans, lists and dictionaries.  A
    dictionary is kept as the list of its items in insertion order, which is
    the order Python iterates (and serializes) them in. *)

From Stdlib Require Import List String Ascii Bool Arith Lia.
Import ListNotations.
Local Open Scope string_scope.
Local Open Scope list_scope.

(** ** Python values *)

Unset Elimination Schemes.
Inductive value : Type :=
| VStr (s : string)
| VBool (b : bool)
| VList (items : list value)
| VDict (items : list (string * value)).
Set Elimination Schemes.

(** Structural induction that reaches below lists and dictionaries. *)
Section ValueInd.
Variable P : value -> Prop.
Hypothesis HStr : forall s, P (VStr s).
Hypothesis HBool : forall b, P (VBool b).
Hypothesis HList : forall l, Forall P l -> P (VList l).
Hypothesis HDict : forall d, Forall (fun kv => P (snd kv)) d -> P (VDict d).

Fixpoint value_ind (v : value) : P v :=
  match v with
  | VStr s => HStr s
  | VBool b => HBool b
  | VList l =>
      HList l ((fix all (l : list value) : Forall P l :=
                  match l with
                  | [] => Forall_nil P
                  | x :: l' => Forall_cons x (value_ind x) (all l')
                  end) l)
  | VDict d =>
      HDict d ((fix all (d : list (string * value))
                  : Forall (fun kv => P (snd kv)) d :=
                  match d with
                  | [] => Forall_nil _
                  | kv :: d' => Forall_cons kv (value_ind (snd kv)) (all d')
                  end) d)
  end.
End ValueInd.

(** Decidable equality on values ([==] on these Python values, with the item
    order of dictionaries taken into account). *)
Fixpoint value_eqb (a b : value) {struct a} : bool :=
  match a, b with
  | VStr s, VStr t => String.eqb s t
  | VBool x, VBool y => Bool.eqb x y
  | VList l, VList m =>
      (fix go (l m : list value) : bool :=
         match l, m with
         | [], [] => true
         | x :: l', y :: m' => value_eqb x y && go l' m'
         | _, _ => false
         end) l m
  | VDict d, VDict e =>
      (fix go (d e : list (string * value)) : bool :=
         match d, e with
         | [], [] => true
         | (k, x) :: d', (k', y) :: e' =>
             String.eqb k k' && value_eqb x y && go d' e'
         | _, _ => false
         end) d e
  | _, _ => false
  end.

(** ** Dictionary access *)

(** [d[k]] on an item list: the value stored under the key [k], if any. *)
Fixpoint assoc (k : string) (d : list (string * value)) : option value :=
  match d with
  | [] => None
  | (k', x) :: d' => if String.eqb k k' then Some x else assoc k d'
  end.

(** [n.get(k)]: [None] when [n] has no key [k] (or is not a dictionary). *)
Definition dict_get (k : string) (n : value) : option value :=
  match n with
  | VDict d => assoc k d
  | _ => None
  end.

(** [k in n]. *)
Definition has_key (k : string) (n : value) : bool :=
  match dict_get k n with
  | Some _ => true
  | None => false
  end.

(** ** The literals of [kt_api_master.py] *)

Definition ORACLE_MASTER : value :=
  VDict [
    ("path", VStr "oracles/");
    ("title", VStr "Oracles");
    ("toc", VBool true);
    ("children", VList [
      VDict [
        ("path", VStr "base_oracle");
        ("title", VStr "The base Oracle class");
        ("generate", VList [
          VStr "kerastuner.Oracle";
          VStr "kerastuner.Oracle.create_trial";
          VStr "kerastuner.Oracle.end_trial";
          VStr "kerastuner.Oracle.get_best_trials";
          VStr "kerastuner.Oracle.get_state";
          VStr "kerastuner.Oracle.set_state";
          VStr "kerastuner.Oracle.update_trial"
        ])
      ];
      VDict [
        ("path", VStr "random");
        ("title", VStr "RandomSearchOracle");
        ("generate", VList [
          VStr "kerastuner.oracles.RandomSearch"
        ])
      ];
      VDict [
        ("path", VStr "bayesian");
        ("title", VStr "BayesianOptimizationOracle");
        ("generate", VList [
          VStr "kerastuner.oracles.BayesianOptimization"
        ])
      ];
      VDict [
        ("path", VStr "hyperband");
        ("title", VStr "HyperbandOracle");
        ("generate", VList [
          VStr "kerastuner.oracles.Hyperband"
        ])
      ]
    ])
  ].

Definition HYPERMODEL_MASTER : value :=
  VDict [
    ("path", VStr "hypermodels/");
    ("title", VStr "HyperModels");
    ("toc", VBool true);
    ("children", VList [
      VDict [
        ("path", VStr "base_hypermodel");
        ("title", VStr "The base HyperModel class");
        ("generate", VList [
          VStr "kerastuner.HyperModel";
          VStr "kerastuner.HyperModel.build"
        ])
      ];
      VDict [
        ("path", VStr "hyper_resnet");
        ("title", VStr "HyperResNet");
        ("generate", VList [
          VStr "kerastuner.applications.HyperResNet"
        ])
      ];
      VDict [
        ("path", VStr "hyper_xception");
        ("title", VStr "HyperXception");
        ("generate", VList [
          VStr "kerastuner.applications.HyperXception"
        ])
      ]
    ])
  ].

Definition TUNER_MASTER : value :=
  VDict [
    ("path", VStr "tuners/");
    ("title", VStr "Tuners");
    ("toc", VBool true);
    ("children", VList [
      VDict [
        ("path", VStr "base_tuner");
        ("title", VStr "The base Tuner class");
        ("generate", VList [
          VStr "kerastuner.Tuner";
          VStr "kerastuner.Tuner.get_best_hyperparameters";
          VStr "kerastuner.Tuner.get_best_models";
          VStr "kerastuner.Tuner.get_state";
          VStr "kerastuner.Tuner.load_model";
          VStr "kerastuner.Tuner.on_epoch_begin";
          VStr "kerastuner.Tuner.on_batch_begin";
          VStr "kerastuner.Tuner.on_batch_end";
          VStr "kerastuner.Tuner.on_epoch_end";
          VStr "kerastuner.Tuner.run_trial";
          VStr "kerastuner.Tuner.save_model";
          VStr "kerastuner.Tuner.search";
          VStr "kerastuner.Tuner.set_state"
        ])
      ];
      VDict [
        ("path", VStr "random");
        ("title", VStr "RandomSearch");
        ("generate", VList [
          VStr "kerastuner.RandomSearch"
        ])
      ];
      VDict [
        ("path", VStr "bayesian");
        ("title", VStr "BayesianOptimization");
        ("generate", VList [
          VStr "kerastuner.BayesianOptimization"
        ])
      ];
      VDict [
        ("path", VStr "hyperband");
        ("title", VStr "Hyperband");
        ("generate", VList [
          VStr "kerastuner.Hyperband"
        ])
      ];
      VDict [
        ("path", VStr "sklearn");
        ("title", VStr "Sklearn");
        ("generate", VList [
          VStr "kerastuner.tuners.Sklearn"
        ])
      ]
    ])
  ].

Definition KT_API_MASTER : value :=
  VDict [
    ("path", VStr "keras-tuner/");
    ("title", VStr "Keras Tuner");
    ("toc", VBool true);
    ("children", VList [
      VDict [
        ("path", VStr "hyperparameters");
        ("title", VStr "HyperParameters");
        ("generate", VList [
          VStr "kerastuner.HyperParameters";
          VStr "kerastuner.HyperParameters.Boolean";
          VStr "kerastuner.HyperParameters.Choice";
          VStr "kerastuner.HyperParameters.Fixed";
          VStr "kerastuner.HyperParameters.Float";
          VStr "kerastuner.HyperParameters.Int";
          VStr "kerastuner.HyperParameters.conditional_scope";
          VStr "kerastuner.HyperParameters.get"
        ])
      ];
      TUNER_MASTER;
      ORACLE_MASTER;
      HYPERMODEL_MASTER
    ])
  ].

(** ** Walking the tree *)

(** [n['children']] when that key holds a list; a node without the key has
    no children. *)
Definition children_of (n : value) : list value :=
  match dict_get "children" n with
  | Some (VList l) => l
  | _ => []
  end.

(** The depth-first, pre-order traversal of the consumer: the node, then the
    nodes of each child in order. *)
Fixpoint nodes (n : value) : list value :=
  n :: match n with
       | VDict d =>
           (fix entries (d : list (string * value)) : list value :=
              match d with
              | [] => []
              | (k, x) :: d' =>
                  if String.eqb "children" k then
                    match x with
                    | VList l =>
                        (fix each (l : list value) : list value :=
                           match l with
                           | [] => []
                           | c :: l' => nodes c ++ each l'
                           end) l
                    | _ => []
                    end
                  else entries d'
              end) d
       | _ => []
       end.

(** [in_tree root n]: [n] is [root] or is reached from it through
    [children] lists. *)
Inductive in_tree (root : value) : value -> Prop :=
| in_tree_root : in_tree root root
| in_tree_child (p c : value) :
    in_tree root p -> In c (children_of p) -> in_tree root c.

(** A leaf is a node without a [children] key. *)
Definition is_leaf (n : value) : bool := negb (has_key "children" n).

(** The [path] values of the immediate children of [n], in order. *)
Definition child_paths (n : value) : list (option value) :=
  map (dict_get "path") (children_of n).

(** [generate] is present, is a list, and that list is not empty. *)
Definition generate_nonempty (n : value) : bool :=
  match dict_get "generate" n with
  | Some (VList (_ :: _)) => true
  | _ => false
  end.

(** Every item of the list is a string that starts with [p]. *)
Definition all_prefixed (p : string) (g : list value) : bool :=
  forallb (fun x => match x with
                    | VStr s => String.prefix p s
                    | _ => false
                    end) g.

(** The nodes of the tree that carry a [children] key. *)
Definition non_leaf_nodes (root : value) : list value :=
  filter (fun n => negb (is_leaf n)) (nodes root).

(** The last page of [TUNER_MASTER] (lines 118-124 of the module), under a
    name of its own for use in examples. *)
Definition sklearn_page : value :=
  VDict [
    ("path", VStr "sklearn");
    ("title", VStr "Sklearn");
    ("generate", VList [
      VStr "kerastuner.tuners.Sklearn"
    ])
  ].

(** Equality on optional values, and a list without repeated entries. *)
Definition opt_value_eqb (a b : option value) : bool :=
  match a, b with
  | Some x, Some y => value_eqb x y
  | None, None => true
  | _, _ => false
  end.

Fixpoint distinctb (l : list (option value)) : bool :=
  match l with
  | [] => true
  | x :: l' => negb (existsb (opt_value_eqb x) l') && distinctb l'
  end.

(** A dictionary holds each key once; [dict_wf] says so for an item list
    and for every dictionary below it. *)
Fixpoint dict_wf (v : value) : bool :=
  match v with
  | VStr _ | VBool _ => true
  | VList l =>
      (fix all (l : list value) : bool :=
         match l with
         | [] => true
         | x :: l' => dict_wf x && all l'
         end) l
  | VDict d =>
      (fix all (d : list (string * value)) : bool :=
         match d with
         | [] => true
         | (k, x) :: d' =>
             negb (existsb (fun kv => String.eqb k (fst kv)) d')
             && dict_wf x && all d'
         end) d
  end.

(** [d[k] = x]: replaces the value of an existing key in place, appends a
    new key at the end. *)
Fixpoint dict_set (k : string) (x : value) (d : list (string * value))
  : list (string * value) :=
  match d with
  | [] => [(k, x)]
  | (k', y) :: d' =>
      if String.eqb k k' then (k', x) :: d' else (k', y) :: dict_set k x d'
  end.

(** [dict(pairs)]. *)
Definition dict_of_pairs (pairs : list (string * value))
  : list (string * value) :=
  fold_left (fun d kv => dict_set (fst kv) (snd kv) d) pairs [].

(** ** JSON text *)

(** The repository holds the tree only: nothing in it writes the tree out or
    reads it back.  The writer and the reader below follow the format the
    spec names, JSON, with the defaults of Python's [json] module. *)

Module Json.
Local Open Scope string_scope.

(** Characters that cannot be written inside a string literal here. *)
Definition quote : ascii := ascii_of_nat 34.
Definition backslash : ascii := ascii_of_nat 92.
Definition ch_b : ascii := ascii_of_nat 8.
Definition ch_t : ascii := ascii_of_nat 9.
Definition ch_n : ascii := ascii_of_nat 10.
Definition ch_f : ascii := ascii_of_nat 12.
Definition ch_r : ascii := ascii_of_nat 13.

(** The string of one character. *)
Definition str1 (c : ascii) : string := String c EmptyString.

(** *** Writing *)

(** Modelled from the spec: the serializer is not part of the repository.
    The lower-case hexadecimal digit of a number below sixteen. *)
Definition hex_digit (n : nat) : ascii :=
  nth n ["0"; "1"; "2"; "3"; "4"; "5"; "6"; "7";
         "8"; "9"; "a"; "b"; "c"; "d"; "e"; "f"]%char "0"%char.

(** Modelled from the spec: the serializer is not part of the repository;
    the spec names JSON as the format.  One character of a string in JSON
    text with ASCII output: the two-character escapes for the quote, the
    backslash and the five named control characters, the character itself
    from the space to the tilde, a [\u00XX] escape for the rest.  A
    character is a code point below 256. *)
Definition escape_char (c : ascii) : string :=
  if Ascii.eqb c quote then String backslash (str1 quote)
  else if Ascii.eqb c backslash then String backslash (str1 backslash)
  else if Ascii.eqb c ch_b then String backslash "b"
  else if Ascii.eqb c ch_f then String backslash "f"
  else if Ascii.eqb c ch_n then String backslash "n"
  else if Ascii.eqb c ch_r then String backslash "r"
  else if Ascii.eqb c ch_t then String backslash "t"
  else
    let n := nat_of_ascii c in
    if Nat.leb 32 n && Nat.leb n 126 then str1 c
    else String backslash
           ("u00" ++ String (hex_digit (n / 16)) (str1 (hex_digit (n mod 16)))).

(** Modelled from the spec: the serializer is not part of the repository.
    The characters of a string, escaped one by one. *)
Fixpoint escape (s : string) : string :=
  match s with
  | EmptyString => EmptyString
  | String c s' => escape_char c ++ escape s'
  end.

(** Modelled from the spec: the serializer is not part of the repository.
    A string as a JSON string: its escaped characters between quotes. *)
Definition encode_string (s : string) : string :=
  String quote (escape s ++ str1 quote).

(** Modelled from the spec: the serializer is not part of the repository.
    One item of an object: the key as a string, [": "], the text of the
    value as [dump] writes it. *)
Definition item_text (dump : value -> string) (kv : string * value) : string :=
  encode_string (fst kv) ++ ": " ++ dump (snd kv).

(** Modelled from the spec: the serializer is not part of the repository;
    the spec names JSON as the format.  [dumps] writes a value as JSON text
    the way Python's [json.dumps] does by default: [true] and [false],
    quoted strings, arrays and objects in item order with [", "] between
    items and [": "] after a key. *)
Fixpoint dumps (v : value) : string :=
  match v with
  | VStr s => encode_string s
  | VBool true => "true"
  | VBool false => "false"
  | VList l => "[" ++ String.concat ", " (map dumps l) ++ "]"
  | VDict d => "{" ++ String.concat ", " (map (item_text dumps) d) ++ "}"
  end.

(** The number of values in [v], itself included. *)
Fixpoint size (v : value) : nat :=
  S match v with
    | VStr _ | VBool _ => 0
    | VList l => list_sum (map size l)
    | VDict d => list_sum (map (fun kv => size (snd kv)) d)
    end.

(** *** Reading *)

(** Modelled from the spec: the deserializer is not part of the repository.
    White space between the tokens of a JSON text: space, tab, line feed,
    carriage return. *)
Definition is_ws (c : ascii) : bool :=
  Ascii.eqb c " " || Ascii.eqb c ch_t || Ascii.eqb c ch_n || Ascii.eqb c ch_r.

(** Modelled from the spec: the deserializer is not part of the repository.
    [s] without the white space it starts with. *)
Fixpoint skip_ws (s : string) : string :=
  match s with
  | String c s' => if is_ws c then skip_ws s' else s
  | EmptyString => s
  end.

(** Modelled from the spec: the deserializer is not part of the repository.
    The value of a hexadecimal digit, in either case. *)
Definition hex_value (c : ascii) : option nat :=
  let n := nat_of_ascii c in
  if Nat.leb 48 n && Nat.leb n 57 then Some (n - 48)
  else if Nat.leb 97 n && Nat.leb n 102 then Some (n - 87)
  else if Nat.leb 65 n && Nat.leb n 70 then Some (n - 55)
  else None.

(** Modelled from the spec: the deserializer is not part of the repository.
    The code point written by the four digits of a [\u] escape. *)
Definition hex4 (a b c d : ascii) : option nat :=
  match hex_value a, hex_value b, hex_value c, hex_value d with
  | Some x, Some y, Some z, Some w => Some (((x * 16 + y) * 16 + z) * 16 + w)
  | _, _, _, _ => None
  end.

(** Modelled from the spec: the deserializer is not part of the repository.
    The character a two-character escape stands for. *)
Definition unescape (e : ascii) : option ascii :=
  if Ascii.eqb e quote then Some quote
  else if Ascii.eqb e backslash then Some backslash
  else if Ascii.eqb e "/" then Some "/"%char
  else if Ascii.eqb e "b" then Some ch_b
  else if Ascii.eqb e "f" then Some ch_f
  else if Ascii.eqb e "n" then Some ch_n
  else if Ascii.eqb e "r" then Some ch_r
  else if Ascii.eqb e "t" then Some ch_t
  else None.

(** Puts [c] in front of the string read so far. *)
Definition cons_char (c : ascii) (r : option (string * string))
  : option (string * string) :=
  match r with
  | Some (str, rest) => Some (String c str, rest)
  | None => None
  end.

(** Modelled from the spec: the deserializer is not part of the repository.
    Reads a JSON string from behind its opening quote up to the closing
    one.  A raw control character is refused, and so is an escape for a
    code point that a character of this model cannot hold (256 and above). *)
Fixpoint scanstring (s : string) : option (string * string) :=
  match s with
  | EmptyString => None
  | String c rest =>
      if Ascii.eqb c quote then Some (EmptyString, rest)
      else if Ascii.eqb c backslash then
        match rest with
        | EmptyString => None
        | String e rest1 =>
            if Ascii.eqb e "u" then
              match rest1 with
              | String h1 (String h2 (String h3 (String h4 rest2))) =>
                  match hex4 h1 h2 h3 h4 with
                  | Some n =>
                      if Nat.ltb n 256
                      then cons_char (ascii_of_nat n) (scanstring rest2)
                      else None
                  | None => None
                  end
              | _ => None
              end
            else
              match unescape e with
              | Some ch => cons_char ch (scanstring rest1)
              | None => None
              end
        end
      else if Nat.ltb (nat_of_ascii c) 32 then None
      else cons_char c (scanstring rest)
  end.

Section Containers.
(** The reader of one value, used for the items. *)
Variable scan : string -> option (value * string).

(** Modelled from the spec: the deserializer is not part of the repository.
    The items of an array from behind a [","] or the opening bracket, up
    to the closing bracket. *)
Fixpoint array_items (fuel : nat) (s : string)
  : option (list value * string) :=
  match fuel with
  | O => None
  | S fuel' =>
      match scan s with
      | None => None
      | Some (x, s1) =>
          match skip_ws s1 with
          | EmptyString => None
          | String c s2 =>
              if Ascii.eqb c "]" then Some ([x], s2)
              else if Ascii.eqb c "," then
                match array_items fuel' (skip_ws s2) with
                | Some (xs, s3) => Some (x :: xs, s3)
                | None => None
                end
              else None
          end
      end
  end.

(** Modelled from the spec: the deserializer is not part of the repository.
    An array from behind its opening bracket. *)
Definition parse_array (fuel : nat) (s : string)
  : option (list value * string) :=
  match skip_ws s with
  | EmptyString => None
  | String c s' as s0 =>
      if Ascii.eqb c "]" then Some ([], s') else array_items fuel s0
  end.

(** Modelled from the spec: the deserializer is not part of the repository.
    The [key: value] pairs of an object from the opening quote of a key
    up to the closing brace. *)
Fixpoint object_items (fuel : nat) (s : string)
  : option (list (string * value) * string) :=
  match fuel with
  | O => None
  | S fuel' =>
      match s with
      | EmptyString => None
      | String q s0 =>
          if Ascii.eqb q quote then
            match scanstring s0 with
            | None => None
            | Some (k, s1) =>
                match skip_ws s1 with
                | EmptyString => None
                | String c s2 =>
                    if Ascii.eqb c ":" then
                      match scan (skip_ws s2) with
                      | None => None
                      | Some (x, s3) =>
                          match skip_ws s3 with
                          | EmptyString => None
                          | String c' s4 =>
                              if Ascii.eqb c' "}" then Some ([(k, x)], s4)
                              else if Ascii.eqb c' "," then
                                match object_items fuel' (skip_ws s4) with
                                | Some (kxs, s5) => Some ((k, x) :: kxs, s5)
                                | None => None
                                end
                              else None
                          end
                      end
                    else None
                end
            end
          else None
      end
  end.

(** Modelled from the spec: the deserializer is not part of the repository.
    An object from behind its opening brace; the pairs build the
    dictionary in the order read. *)
Definition parse_object (fuel : nat) (s : string)
  : option (list (string * value) * string) :=
  match skip_ws s with
  | EmptyString => None
  | String c s' as s0 =>
      if Ascii.eqb c "}" then Some ([], s')
      else match object_items fuel s0 with
           | Some (pairs, s1) => Some (dict_of_pairs pairs, s1)
           | None => None
           end
  end.
End Containers.

(** Modelled from the spec: the deserializer is not part of the repository.
    [s] without the literal [lit] it starts with. *)
Fixpoint literal (lit s : string) : option string :=
  match lit with
  | EmptyString => Some s
  | String a lit' =>
      match s with
      | EmptyString => None
      | String b s' => if Ascii.eqb a b then literal lit' s' else None
      end
  end.

(** Modelled from the spec: the deserializer is not part of the repository.
    Reads one JSON value at the start of [s]: a string, an object, an
    array, [true] or [false].  [null] and numbers are not values of this
    model and are refused.  [fuel] bounds the nesting and the number of
    items. *)
Fixpoint scan_once (fuel : nat) (s : string) : option (value * string) :=
  match fuel with
  | O => None
  | S fuel' =>
      match s with
      | EmptyString => None
      | String c rest =>
          if Ascii.eqb c quote then
            match scanstring rest with
            | Some (str, s1) => Some (VStr str, s1)
            | None => None
            end
          else if Ascii.eqb c "{" then
            match parse_object (scan_once fuel') fuel' rest with
            | Some (d, s1) => Some (VDict d, s1)
            | None => None
            end
          else if Ascii.eqb c "[" then
            match parse_array (scan_once fuel') fuel' rest with
            | Some (l, s1) => Some (VList l, s1)
            | None => None
            end
          else
            match literal "true" s with
            | Some s1 => Some (VBool true, s1)
            | None =>
                match literal "false" s with
                | Some s1 => Some (VBool false, s1)
                | None => None
                end
            end
      end
  end.

(** Modelled from the spec: the deserializer is not part of the repository;
    the spec names JSON as the format.  [loads] reads a whole JSON text the
    way Python's [json.loads] does: one value, white space allowed around
    it, nothing else behind it. *)
Definition loads (s : string) : option value :=
  match scan_once (S (String.length s)) (skip_ws s) with
  | Some (v, rest) =>
      match skip_ws rest with
      | EmptyString => Some v
      | String _ _ => None
      end
  | None => None
  end.

(** *** Notions used to state the round trip *)

(** What the text of a value starts with: a character that is neither
    white space nor a closing bracket. *)
Definition starts_value (s : string) : Prop :=
  exists c s', s = String c s' /\ is_ws c = false /\ Ascii.eqb c "]" = false.

(** [scan] reads the text of [x] back, whatever follows it. *)
Definition reads_back (scan : string -> option (value * string)) (x : value)
  : Prop :=
  forall rest, scan (dumps x ++ rest) = Some (x, rest).

End Json.

(** ** Reading a node *)

(** [list(n.keys())]: the keys of a node in the order of the literal. *)
Definition keys (n : value) : list string :=
  match n with
  | VDict d => map fst d
  | _ => []
  end.

(** [n['generate']] when that key holds a list; a node without the key
    lists no symbols. *)
Definition generate_of (n : value) : list value :=
  match dict_get "generate" n with
  | Some (VList g) => g
  | _ => []
  end.

(** The symbols of every page, in the order of the traversal. *)
Definition symbols (root : value) : list value :=
  flat_map generate_of (nodes root).

(** ** Characters of paths and symbols *)

(** [s.count(c)]. *)
Fixpoint count_char (c : ascii) (s : string) : nat :=
  match s with
  | EmptyString => 0
  | String a s' => (if Ascii.eqb a c then 1 else 0) + count_char c s'
  end.

(** [s[-1]], when [s] is not empty. *)
Fixpoint last_char (s : string) : option ascii :=
  match s with
  | EmptyString => None
  | String a EmptyString => Some a
  | String _ s' => last_char s'
  end.

(** [s.split('.')]. *)
Fixpoint split_dots (s : string) : list string :=
  match s with
  | EmptyString => [EmptyString]
  | String a s' =>
      if Ascii.eqb a "." then EmptyString :: split_dots s'
      else match split_dots s' with
           | seg :: segs => String a seg :: segs
           | [] => [String a EmptyString]
           end
  end.

Definition is_digit (c : ascii) : bool :=
  Nat.leb 48 (nat_of_ascii c) && Nat.leb (nat_of_ascii c) 57.

Definition is_letter (c : ascii) : bool :=
  let n := nat_of_ascii c in
  (Nat.leb 65 n && Nat.leb n 90) || (Nat.leb 97 n && Nat.leb n 122)
  || Ascii.eqb c "_".

Fixpoint all_chars (ok : ascii -> bool) (s : string) : bool :=
  match s with
  | EmptyString => true
  | String a s' => ok a && all_chars ok s'
  end.

(** [seg.isidentifier()] on ASCII text: a letter or an underscore, then
    letters, digits and underscores. *)
Definition is_identifier (seg : string) : bool :=
  match seg with
  | EmptyString => false
  | String a rest =>
      is_letter a && all_chars (fun c => is_letter c || is_digit c) rest
  end.

(** * Properties of the traversal *)

Lemma nodes_unfold (n : value) :
  nodes n = n :: flat_map nodes (children_of n).
Proof.
  destruct n as [s | b | l | d]; try reflexivity.
  unfold children_of, dict_get. cbn [nodes]. f_equal.
  induction d as [| [k x] d IH]; [reflexivity |].
  cbn [assoc]. destruct (String.eqb "children" k); [| exact IH].
  destruct x as [s | b | l | e]; reflexivity.
Qed.

Lemma nodes_self (n : value) : In n (nodes n).
Proof. rewrite nodes_unfold. now left. Qed.

Lemma assoc_In (k : string) (d : list (string * value)) (x : value) :
  assoc k d = Some x -> In x (map snd d).
Proof.
  induction d as [| [k' y] d IH]; simpl; [discriminate |].
  destruct (String.eqb k k'); intros H.
  - injection H as ->. now left.
  - right. now apply IH.
Qed.

(** The traversal is closed under taking children. *)
Lemma nodes_closed (root p c : value) :
  In p (nodes root) -> In c (children_of p) -> In c (nodes root).
Proof.
  revert p c.
  enough (H : (forall p c, In p (nodes root) -> In c (children_of p) ->
                           In c (nodes root)) /\
              match root with
              | VList l =>
                  Forall (fun r => forall p c, In p (nodes r) ->
                            In c (children_of p) -> In c (nodes r)) l
              | _ => True
              end) by apply H.
  induction root as [s | b | l IH | d IH] using value_ind.
  - split; [| exact I]. intros p c [<- | []] Hc. destruct Hc.
  - split; [| exact I]. intros p c [<- | []] Hc. destruct Hc.
  - split.
    + intros p c [<- | []] Hc. destruct Hc.
    + eapply Forall_impl; [| exact IH]. intros r Hr. apply Hr.
  - split; [| exact I]. intros p c Hp Hc.
    rewrite nodes_unfold in Hp |- *. right.
    apply in_flat_map.
    destruct Hp as [<- | Hp].
    + exists c. split; [exact Hc | apply nodes_self].
    + apply in_flat_map in Hp. destruct Hp as (r & Hr & Hp).
      exists r. split; [exact Hr |].
      unfold children_of, dict_get in Hr.
      destruct (assoc "children" d) as [[s | b | l | e] |] eqn:E;
        try contradiction.
      apply assoc_In in E. apply in_map_iff in E.
      destruct E as (kv & Ekv & Hkv).
      rewrite Forall_forall in IH. specialize (IH kv Hkv).
      rewrite Ekv in IH. destruct IH as [_ IH].
      rewrite Forall_forall in IH. exact (IH r Hr p c Hp Hc).
Qed.

(** Every node of the tree is met by the traversal. *)
Lemma in_tree_nodes (root n : value) : in_tree root n -> In n (nodes root).
Proof.
  induction 1 as [| p c _ IH Hc].
  - apply nodes_self.
  - exact (nodes_closed root p c IH Hc).
Qed.

Lemma in_tree_trans (root m n : value) :
  in_tree root m -> in_tree m n -> in_tree root n.
Proof.
  intros Hm Hn. induction Hn as [| p c _ IH Hc]; [exact Hm |].
  exact (in_tree_child root p c IH Hc).
Qed.

(** A property checked on the traversal holds on the whole tree. *)
Lemma tree_forallb (check : value -> bool) (root : value) :
  forallb check (nodes root) = true ->
  forall n, in_tree root n -> check n = true.
Proof.
  intros H n Hn. rewrite forallb_forall in H.
  apply H. now apply in_tree_nodes.
Qed.

(** * The shape of the four literals *)

(** C1: the root [KT_API_MASTER] has path ["keras-tuner/"], and its
    [children] list has exactly four entries, in this order: the
    hyperparameters page, [TUNER_MASTER], [ORACLE_MASTER] and
    [HYPERMODEL_MASTER]. *)
Theorem root_path_and_children :
  dict_get "path" KT_API_MASTER = Some (VStr "keras-tuner/") /\
  List.length (children_of KT_API_MASTER) = 4 /\
  child_paths KT_API_MASTER
  = [Some (VStr "hyperparameters"); Some (VStr "tuners/");
     Some (VStr "oracles/"); Some (VStr "hypermodels/")] /\
  exists hp : value,
    dict_get "children" KT_API_MASTER
    = Some (VList [hp; TUNER_MASTER; ORACLE_MASTER; HYPERMODEL_MASTER]) /\
    dict_get "path" hp = Some (VStr "hyperparameters") /\
    dict_get "title" hp = Some (VStr "HyperParameters").
Proof.
  do 3 (split; [reflexivity |]).
  eexists. split; [reflexivity |]. split; reflexivity.
Qed.

(** C2: [TUNER_MASTER] has exactly five children, whose paths are, in
    order, base_tuner, random, bayesian, hyperband, sklearn. *)
Theorem tuner_children_paths :
  has_key "children" TUNER_MASTER = true /\
  List.length (children_of TUNER_MASTER) = 5 /\
  child_paths TUNER_MASTER
  = [Some (VStr "base_tuner"); Some (VStr "random"); Some (VStr "bayesian");
     Some (VStr "hyperband"); Some (VStr "sklearn")].
Proof. repeat split. Qed.

(** C3: [ORACLE_MASTER] has exactly four children, whose paths are, in
    order, base_oracle, random, bayesian, hyperband. *)
Theorem oracle_children_paths :
  has_key "children" ORACLE_MASTER = true /\
  List.length (children_of ORACLE_MASTER) = 4 /\
  child_paths ORACLE_MASTER
  = [Some (VStr "base_oracle"); Some (VStr "random"); Some (VStr "bayesian");
     Some (VStr "hyperband")].
Proof. repeat split. Qed.

(** C9: [HYPERMODEL_MASTER] has exactly three children, whose paths are,
    in order, base_hypermodel, hyper_resnet, hyper_xception. *)
Theorem hypermodel_children_paths :
  has_key "children" HYPERMODEL_MASTER = true /\
  List.length (children_of HYPERMODEL_MASTER) = 3 /\
  child_paths HYPERMODEL_MASTER
  = [Some (VStr "base_hypermodel"); Some (VStr "hyper_resnet");
     Some (VStr "hyper_xception")].
Proof. repeat split. Qed.

(** The traversal meets seventeen nodes: the root, the hyperparameters
    page, the three sub-trees and their twelve pages. *)
Example nodes_count : List.length (nodes KT_API_MASTER) = 17.
Proof. reflexivity. Qed.

Example tuner_nodes :
  map (dict_get "title") (nodes TUNER_MASTER)
  = [Some (VStr "Tuners"); Some (VStr "The base Tuner class");
     Some (VStr "RandomSearch"); Some (VStr "BayesianOptimization");
     Some (VStr "Hyperband"); Some (VStr "Sklearn")].
Proof. reflexivity. Qed.

(** The pages named in the examples are nodes of the tree. *)
Lemma tuner_in_tree : in_tree KT_API_MASTER TUNER_MASTER.
Proof.
  apply in_tree_child with (p := KT_API_MASTER); [apply in_tree_root |].
  right. left. reflexivity.
Qed.

Lemma sklearn_in_tree : in_tree KT_API_MASTER sklearn_page.
Proof.
  apply in_tree_child with (p := TUNER_MASTER); [apply tuner_in_tree |].
  do 4 right. left. reflexivity.
Qed.

(** * Equality tests *)

Lemma value_eqb_eq (a b : value) : value_eqb a b = true -> a = b.
Proof.
  revert b.
  induction a as [s | x | l IH | d IH] using value_ind;
    intros [t | y | m | e]; simpl; try discriminate.
  - intros H. apply String.eqb_eq in H. now subst.
  - intros H. apply Bool.eqb_prop in H. now subst.
  - intros H. f_equal. revert m H.
    induction IH as [| x l Hx _ IHl]; intros [| y m]; try discriminate.
    + reflexivity.
    + intros H. apply andb_prop in H. destruct H as [H1 H2].
      f_equal; [now apply Hx | now apply IHl].
  - intros H. f_equal. revert e H.
    induction IH as [| [k x] d Hx _ IHd]; intros [| [k' y] e];
      try discriminate.
    + reflexivity.
    + intros H. apply andb_prop in H. destruct H as [H1 H3].
      apply andb_prop in H1. destruct H1 as [H1 H2].
      apply String.eqb_eq in H1. subst k'.
      f_equal; [f_equal; now apply Hx | now apply IHd].
Qed.

Lemma value_eqb_refl (a : value) : value_eqb a a = true.
Proof.
  induction a as [s | x | l IH | d IH] using value_ind; simpl.
  - apply String.eqb_refl.
  - now destruct x.
  - induction IH as [| x l Hx _ IHl]; [reflexivity |].
    now rewrite Hx, IHl.
  - induction IH as [| [k x] d Hx _ IHd]; [reflexivity |].
    simpl in Hx. now rewrite String.eqb_refl, Hx, IHd.
Qed.

Lemma opt_value_eqb_refl (a : option value) : opt_value_eqb a a = true.
Proof. destruct a; [apply value_eqb_refl | reflexivity]. Qed.

Lemma distinctb_NoDup (l : list (option value)) :
  distinctb l = true -> NoDup l.
Proof.
  induction l as [| x l IH]; simpl; intros H; [constructor |].
  apply andb_prop in H. destruct H as [H1 H2].
  constructor; [| now apply IH].
  intros Hin. apply negb_true_iff in H1.
  assert (E : existsb (opt_value_eqb x) l = true).
  { apply existsb_exists. exists x. split; [exact Hin |].
    apply opt_value_eqb_refl. }
  congruence.
Qed.

(** * Invariants of the tree *)

(** C4: every node of the tree rooted at [KT_API_MASTER] that has no
    [children] key has a [generate] key, and its list is not empty. *)
Theorem leaf_generate_nonempty (n : value) :
  in_tree KT_API_MASTER n ->
  has_key "children" n = false ->
  exists g : list value,
    dict_get "generate" n = Some (VList g) /\ g <> [].
Proof.
  intros Hn Hleaf.
  assert (H := tree_forallb
                 (fun m => implb (is_leaf m) (generate_nonempty m))
                 KT_API_MASTER eq_refl n Hn).
  cbv beta in H. unfold is_leaf in H. rewrite Hleaf in H. simpl in H.
  unfold generate_nonempty in H.
  destruct (dict_get "generate" n) as [[s | b | [| x g] | d] |];
    try discriminate.
  exists (x :: g). split; [reflexivity | discriminate].
Qed.

Lemma leaf_generate_nonempty_witness :
  in_tree KT_API_MASTER sklearn_page /\
  has_key "children" sklearn_page = false /\
  exists g : list value,
    dict_get "generate" sklearn_page = Some (VList g) /\ g <> [].
Proof.
  split; [exact sklearn_in_tree |]. split; [reflexivity |].
  apply (leaf_generate_nonempty sklearn_page);
    [exact sklearn_in_tree | reflexivity].
Defined.

(** C5: every node of the tree rooted at [KT_API_MASTER] that has a
    [children] key has [toc] present and equal to [True], and has no
    [generate] key. *)
Theorem non_leaf_toc_no_generate (n : value) :
  in_tree KT_API_MASTER n ->
  has_key "children" n = true ->
  dict_get "toc" n = Some (VBool true) /\ has_key "generate" n = false.
Proof.
  intros Hn Hch.
  assert (H := tree_forallb
                 (fun m => implb (has_key "children" m)
                             (opt_value_eqb (dict_get "toc" m)
                                            (Some (VBool true))
                              && negb (has_key "generate" m)))
                 KT_API_MASTER eq_refl n Hn).
  cbv beta in H. rewrite Hch in H. simpl in H.
  apply andb_prop in H. destruct H as [H1 H2].
  split.
  - destruct (dict_get "toc" n) as [t |]; [| discriminate].
    apply value_eqb_eq in H1. now subst.
  - now apply negb_true_iff in H2.
Qed.

Lemma non_leaf_toc_no_generate_witness :
  in_tree KT_API_MASTER TUNER_MASTER /\
  has_key "children" TUNER_MASTER = true /\
  dict_get "toc" TUNER_MASTER = Some (VBool true) /\
  has_key "generate" TUNER_MASTER = false.
Proof.
  split; [exact tuner_in_tree |]. split; [reflexivity |].
  apply (non_leaf_toc_no_generate TUNER_MASTER);
    [exact tuner_in_tree | reflexivity].
Defined.

(** C6: for every node of the tree rooted at [KT_API_MASTER], the [path]
    values of its immediate children are pairwise distinct. *)
Theorem sibling_paths_distinct (n : value) :
  in_tree KT_API_MASTER n -> NoDup (child_paths n).
Proof.
  intros Hn. apply distinctb_NoDup.
  exact (tree_forallb (fun m => distinctb (child_paths m))
           KT_API_MASTER eq_refl n Hn).
Qed.

(** Paths are not unique across the tree: [random] is a page of the tuners
    and a page of the oracles. *)
Example random_path_twice :
  In (Some (VStr "random")) (child_paths TUNER_MASTER) /\
  In (Some (VStr "random")) (child_paths ORACLE_MASTER) /\
  ~ NoDup (map (dict_get "path") (nodes KT_API_MASTER)).
Proof.
  split; [right; left; reflexivity |].
  split; [right; left; reflexivity |].
  intros H.
  assert (E : map (dict_get "path") (nodes KT_API_MASTER)
              = (firstn 4 (map (dict_get "path") (nodes KT_API_MASTER))
                 ++ Some (VStr "random")
                 :: skipn 5 (map (dict_get "path") (nodes KT_API_MASTER))))
    by reflexivity.
  rewrite E in H. apply NoDup_remove_2 in H. apply H.
  vm_compute. tauto.
Qed.

Lemma sibling_paths_distinct_witness :
  in_tree KT_API_MASTER TUNER_MASTER /\ NoDup (child_paths TUNER_MASTER).
Proof.
  split; [exact tuner_in_tree |].
  apply (sibling_paths_distinct TUNER_MASTER). exact tuner_in_tree.
Defined.

(** C7: no node of the tree rooted at [KT_API_MASTER] has both a
    [children] key and a [generate] key. *)
Theorem children_generate_exclusive (n : value) :
  in_tree KT_API_MASTER n ->
  ~ (has_key "children" n = true /\ has_key "generate" n = true).
Proof.
  intros Hn [Hc Hg].
  assert (H := tree_forallb
                 (fun m => negb (has_key "children" m && has_key "generate" m))
                 KT_API_MASTER eq_refl n Hn).
  cbv beta in H. rewrite Hc, Hg in H. discriminate.
Qed.

Lemma children_generate_exclusive_witness :
  in_tree KT_API_MASTER sklearn_page /\
  ~ (has_key "children" sklearn_page = true /\
     has_key "generate" sklearn_page = true).
Proof.
  split; [exact sklearn_in_tree |].
  apply (children_generate_exclusive sklearn_page). exact sklearn_in_tree.
Defined.

Lemma all_prefixed_Forall (p : string) (g : list value) :
  all_prefixed p g = true ->
  Forall (fun x => exists s, x = VStr s /\ String.prefix p s = true) g.
Proof.
  unfold all_prefixed. rewrite forallb_forall, Forall_forall.
  intros H x Hx. specialize (H x Hx).
  destruct x as [s | b | l | d]; try discriminate.
  now exists s.
Qed.

(** C10: in the tree rooted at [KT_API_MASTER] no leaf carries a [toc]
    key, every item of a leaf's [generate] list is a string that begins
    with ["kerastuner."], and the nodes that do carry a [toc] key are among
    the four nodes with children: the root and the three sub-trees. *)
Theorem leaves_without_toc_symbols_prefixed (n : value) :
  in_tree KT_API_MASTER n ->
  (has_key "children" n = false ->
   has_key "toc" n = false /\
   forall g, dict_get "generate" n = Some (VList g) ->
     Forall (fun x => exists s,
               x = VStr s /\ String.prefix "kerastuner." s = true) g) /\
  (has_key "toc" n = true ->
   has_key "children" n = true /\
   In n [KT_API_MASTER; TUNER_MASTER; ORACLE_MASTER; HYPERMODEL_MASTER]) /\
  non_leaf_nodes KT_API_MASTER
  = [KT_API_MASTER; TUNER_MASTER; ORACLE_MASTER; HYPERMODEL_MASTER].
Proof.
  intros Hn.
  assert (H := tree_forallb
    (fun m =>
       if has_key "children" m
       then existsb (value_eqb m)
              [KT_API_MASTER; TUNER_MASTER; ORACLE_MASTER; HYPERMODEL_MASTER]
       else negb (has_key "toc" m)
            && match dict_get "generate" m with
               | Some (VList g) => all_prefixed "kerastuner." g
               | _ => true
               end)
    KT_API_MASTER eq_refl n Hn).
  cbv beta in H.
  split; [| split; [| reflexivity]].
  - intros Hleaf. rewrite Hleaf in H.
    apply andb_prop in H. destruct H as [H1 H2].
    split; [now apply negb_true_iff in H1 |].
    intros g Hg. rewrite Hg in H2. now apply all_prefixed_Forall.
  - intros Htoc. destruct (has_key "children" n) eqn:Hc.
    + split; [reflexivity |].
      apply existsb_exists in H. destruct H as (m & Hm & E).
      apply value_eqb_eq in E. now subst.
    + apply andb_prop in H. destruct H as [H1 _].
      rewrite Htoc in H1. discriminate.
Qed.

Lemma leaves_without_toc_symbols_prefixed_witness :
  in_tree KT_API_MASTER sklearn_page /\
  has_key "children" sklearn_page = false /\
  has_key "toc" sklearn_page = false /\
  Forall (fun x => exists s,
            x = VStr s /\ String.prefix "kerastuner." s = true)
    [VStr "kerastuner.tuners.Sklearn"].
Proof.
  split; [exact sklearn_in_tree |]. split; [reflexivity |].
  destruct (leaves_without_toc_symbols_prefixed sklearn_page sklearn_in_tree)
    as [Hleaf _].
  destruct (Hleaf eq_refl) as [Htoc Hgen].
  split; [exact Htoc |]. apply Hgen. reflexivity.
Defined.

(** * Dictionaries built from pairs *)

Lemma dict_set_fresh (k : string) (x : value) (d : list (string * value)) :
  ~ In k (map fst d) -> dict_set k x d = d ++ [(k, x)].
Proof.
  induction d as [| [k' y] d IH]; simpl; intros H; [reflexivity |].
  destruct (String.eqb_spec k k') as [-> | _].
  - exfalso. apply H. now left.
  - rewrite IH; [reflexivity |]. intros Hin. apply H. now right.
Qed.

Lemma fold_dict_set_distinct (d acc : list (string * value)) :
  NoDup (map fst (acc ++ d)) ->
  fold_left (fun e kv => dict_set (fst kv) (snd kv) e) d acc = acc ++ d.
Proof.
  revert acc. induction d as [| [k x] d IH]; intros acc H; simpl.
  - now rewrite app_nil_r.
  - rewrite dict_set_fresh.
    + rewrite IH; rewrite <- app_assoc; [reflexivity | exact H].
    + rewrite map_app in H. simpl in H.
      apply NoDup_remove_2 in H. intros Hin. apply H.
      apply in_or_app. now left.
Qed.

Lemma dict_of_pairs_distinct (d : list (string * value)) :
  NoDup (map fst d) -> dict_of_pairs d = d.
Proof. intros H. unfold dict_of_pairs. now rewrite fold_dict_set_distinct. Qed.

Lemma dict_wf_list (l : list value) :
  dict_wf (VList l) = true -> Forall (fun x => dict_wf x = true) l.
Proof.
  induction l as [| x l IH]; intros H; constructor;
    simpl in H; apply andb_prop in H; destruct H as [H1 H2].
  - exact H1.
  - now apply IH.
Qed.

Lemma dict_wf_dict (d : list (string * value)) :
  dict_wf (VDict d) = true ->
  NoDup (map fst d) /\ Forall (fun kv => dict_wf (snd kv) = true) d.
Proof.
  induction d as [| [k x] d IH]; intros H.
  - split; constructor.
  - simpl in H. apply andb_prop in H. destruct H as [H H3].
    apply andb_prop in H. destruct H as [H1 H2].
    destruct (IH H3) as [IH1 IH2].
    split; constructor; trivial.
    intros Hin. apply negb_true_iff in H1.
    apply in_map_iff in Hin. destruct Hin as ([k' y] & E & Hin).
    simpl in E. subst k'.
    assert (E : existsb (fun kv => String.eqb k (fst kv)) d = true).
    { apply existsb_exists. exists (k, y). split; [exact Hin |].
      apply String.eqb_refl. }
    congruence.
Qed.

Lemma list_sum_In (n : nat) (l : list nat) : In n l -> n <= list_sum l.
Proof.
  induction l as [| m l IH]; simpl; [tauto |].
  intros [-> | H]; [lia | specialize (IH H); lia].
Qed.

Lemma length_le_sum_size {A : Type} (f : A -> nat) (l : list A) :
  (forall a, 1 <= f a) -> List.length l <= list_sum (map f l).
Proof.
  intros Hf. induction l as [| a l IH]; simpl; [lia |].
  specialize (Hf a). lia.
Qed.

Lemma size_pos (v : value) : 1 <= Json.size v.
Proof. destruct v; simpl; lia. Qed.

(** * The JSON round trip *)

Module JsonFacts.
Import Json.
Local Open Scope string_scope.

Lemma append_assoc (a b c : string) : (a ++ b) ++ c = a ++ (b ++ c).
Proof. induction a as [| x a IH]; simpl; [reflexivity | now rewrite IH]. Qed.

Lemma length_append (a b : string) :
  String.length (a ++ b) = String.length a + String.length b.
Proof. induction a as [| x a IH]; simpl; [reflexivity | now rewrite IH]. Qed.

(** One escaped character is read back as that character. *)
Lemma scanstring_escape_char (c : ascii) (tail : string) :
  scanstring (escape_char c ++ tail) = cons_char c (scanstring tail).
Proof.
  destruct c as [[] [] [] [] [] [] [] []]; reflexivity.
Qed.

Lemma scanstring_escape (s rest : string) :
  scanstring (escape s ++ String quote rest) = Some (s, rest).
Proof.
  induction s as [| c s IH]; [reflexivity |].
  simpl escape. rewrite append_assoc, scanstring_escape_char, IH.
  reflexivity.
Qed.

Lemma scanstring_encode (s rest : string) :
  exists body,
    encode_string s ++ rest = String quote body /\
    scanstring body = Some (s, rest).
Proof.
  exists (escape s ++ String quote rest). split.
  - unfold encode_string, str1. simpl. now rewrite append_assoc.
  - apply scanstring_escape.
Qed.

Lemma dumps_starts_value (v : value) (rest : string) :
  starts_value (dumps v ++ rest).
Proof.
  destruct v as [s | [] | l | d]; simpl; eexists; eexists;
    (split; [reflexivity | split; reflexivity]).
Qed.

Lemma skip_ws_starts_value (s : string) : starts_value s -> skip_ws s = s.
Proof. intros (c & s' & -> & Hws & _). simpl. now rewrite Hws. Qed.

Lemma literal_append (lit rest : string) : literal lit (lit ++ rest) = Some rest.
Proof.
  induction lit as [| a lit IH]; simpl; [reflexivity |].
  now rewrite Ascii.eqb_refl.
Qed.

(** *** Arrays *)

Section Items.
Variable scan : string -> option (value * string).

Lemma array_items_last (fuel : nat) (s rest : string) (x : value) :
  scan s = Some (x, String "]" rest) ->
  array_items scan (S fuel) s = Some ([x], rest).
Proof. intros H. simpl. rewrite H. reflexivity. Qed.

Lemma array_items_more (fuel : nat) (s s' : string) (x : value) :
  scan s = Some (x, ", " ++ s') ->
  starts_value s' ->
  array_items scan (S fuel) s
  = match array_items scan fuel s' with
    | Some (xs, s3) => Some (x :: xs, s3)
    | None => None
    end.
Proof.
  intros H Hs. cbn [array_items]. rewrite H.
  cbn [append skip_ws is_ws]. cbn.
  now rewrite (skip_ws_starts_value s' Hs).
Qed.

Lemma concat_starts_value (x : value) (l : list value) (rest : string) :
  starts_value (String.concat ", " (map dumps (x :: l)) ++ rest).
Proof.
  simpl map. destruct l; simpl String.concat.
  - apply dumps_starts_value.
  - rewrite append_assoc. apply dumps_starts_value.
Qed.

Lemma array_items_dumps (l : list value) :
  forall (x : value) (fuel : nat) (rest : string),
    Forall (reads_back scan) (x :: l) ->
    List.length (x :: l) <= fuel ->
    array_items scan fuel
      (String.concat ", " (map dumps (x :: l)) ++ String "]" rest)
    = Some (x :: l, rest).
Proof.
  induction l as [| y l IH]; intros x fuel rest Hall Hfuel;
    inversion_clear Hall as [| ? ? Hx Hl];
    (destruct fuel as [| fuel]; [simpl in Hfuel; lia |]).
  - apply array_items_last. apply Hx.
  - change (String.concat ", " (map dumps (x :: y :: l)))
      with (dumps x ++ ", " ++ String.concat ", " (map dumps (y :: l))).
    rewrite !append_assoc.
    rewrite (array_items_more fuel _ _ x (Hx _)
               (concat_starts_value y l _)).
    rewrite IH; [reflexivity | exact Hl | simpl in *; lia].
Qed.

Lemma parse_array_dumps (l : list value) (fuel : nat) (rest : string) :
  Forall (reads_back scan) l ->
  List.length l <= fuel ->
  parse_array scan fuel
    (String.concat ", " (map dumps l) ++ String "]" rest)
  = Some (l, rest).
Proof.
  intros Hall Hfuel. destruct l as [| x l]; [reflexivity |].
  unfold parse_array.
  assert (Hs := concat_starts_value x l (String "]" rest)).
  rewrite skip_ws_starts_value by exact Hs.
  destruct Hs as (c & s' & E & _ & Hc). rewrite E, Hc, <- E.
  now apply array_items_dumps.
Qed.
End Items.

(** *** Objects *)

Section Pairs.
Variable scan : string -> option (value * string).

Lemma object_items_step (fuel : nat) (k : string) (x : value)
      (after : string) :
  reads_back scan x ->
  object_items scan (S fuel) (item_text dumps (k, x) ++ after)
  = match skip_ws after with
    | EmptyString => None
    | String c s4 =>
        if Ascii.eqb c "}" then Some ([(k, x)], s4)
        else if Ascii.eqb c "," then
          match object_items scan fuel (skip_ws s4) with
          | Some (kxs, s5) => Some ((k, x) :: kxs, s5)
          | None => None
          end
        else None
    end.
Proof.
  intros Hx. unfold item_text. cbn [fst snd].
  rewrite !append_assoc.
  destruct (scanstring_encode k (": " ++ dumps x ++ after))
    as (body & -> & Hbody).
  cbn [object_items]. change (Ascii.eqb quote quote) with true. cbv iota.
  rewrite Hbody. cbn [append skip_ws is_ws]. cbn.
  rewrite (skip_ws_starts_value _ (dumps_starts_value x after)).
  rewrite Hx. reflexivity.
Qed.

Lemma items_start_with_quote (kv : string * value)
      (d : list (string * value)) (rest : string) :
  exists body,
    String.concat ", " (map (item_text dumps) (kv :: d)) ++ rest = String quote body.
Proof.
  simpl map. destruct d; simpl String.concat;
    unfold item_text, encode_string; simpl; eexists; reflexivity.
Qed.

Lemma object_items_last (fuel : nat) (k : string) (x : value)
      (rest : string) :
  reads_back scan x ->
  object_items scan (S fuel) (item_text dumps (k, x) ++ String "}" rest)
  = Some ([(k, x)], rest).
Proof. intros Hx. now rewrite object_items_step. Qed.

Lemma object_items_more (fuel : nat) (k : string) (x : value)
      (body : string) :
  reads_back scan x ->
  object_items scan (S fuel) (item_text dumps (k, x) ++ ", " ++ String quote body)
  = match object_items scan fuel (String quote body) with
    | Some (kxs, s5) => Some ((k, x) :: kxs, s5)
    | None => None
    end.
Proof. intros Hx. now rewrite object_items_step. Qed.

Lemma object_items_dumps (d : list (string * value)) :
  forall (kv : string * value) (fuel : nat) (rest : string),
    Forall (fun kv => reads_back scan (snd kv)) (kv :: d) ->
    List.length (kv :: d) <= fuel ->
    object_items scan fuel
      (String.concat ", " (map (item_text dumps) (kv :: d)) ++ String "}" rest)
    = Some (kv :: d, rest).
Proof.
  induction d as [| kv' d IH]; intros [k x] fuel rest Hall Hfuel;
    inversion_clear Hall as [| ? ? Hx Hd];
    (destruct fuel as [| fuel]; [simpl in Hfuel; lia |]).
  - apply object_items_last. exact Hx.
  - change (String.concat ", " (map (item_text dumps) ((k, x) :: kv' :: d)))
      with (item_text dumps (k, x) ++ ", " ++ String.concat ", " (map (item_text dumps) (kv' :: d))).
    rewrite (append_assoc (item_text dumps (k, x))), (append_assoc ", ").
    destruct (items_start_with_quote kv' d (String "}" rest)) as (body & E).
    rewrite E, (object_items_more fuel k x body Hx), <- E.
    rewrite IH; [reflexivity | exact Hd | simpl in *; lia].
Qed.

Lemma parse_object_dumps (d : list (string * value)) (fuel : nat)
      (rest : string) :
  NoDup (map fst d) ->
  Forall (fun kv => reads_back scan (snd kv)) d ->
  List.length d <= fuel ->
  parse_object scan fuel
    (String.concat ", " (map (item_text dumps) d) ++ String "}" rest)
  = Some (d, rest).
Proof.
  intros Hkeys Hall Hfuel. destruct d as [| kv d]; [reflexivity |].
  unfold parse_object.
  destruct (items_start_with_quote kv d (String "}" rest)) as (body & E).
  rewrite E. cbn [skip_ws]. change (is_ws quote) with false. cbv iota.
  change (Ascii.eqb quote "}") with false. cbv iota. rewrite <- E.
  rewrite object_items_dumps by assumption.
  now rewrite dict_of_pairs_distinct.
Qed.
End Pairs.

(** *** Values *)

(** Reading back what [dumps] wrote gives the value and leaves what
    follows it, when the fuel covers the size of the value. *)
Lemma scan_once_dumps (v : value) :
  dict_wf v = true ->
  forall (fuel : nat) (rest : string),
    size v <= fuel -> scan_once fuel (dumps v ++ rest) = Some (v, rest).
Proof.
  induction v as [s | b | l IH | d IH] using value_ind;
    intros Hwf fuel rest Hfuel;
    (destruct fuel as [| fuel]; [simpl in Hfuel; lia |]).
  - destruct (scanstring_encode s rest) as (body & E & Hbody).
    cbn [dumps]. rewrite E. cbn [scan_once].
    change (Ascii.eqb quote quote) with true. cbv iota.
    now rewrite Hbody.
  - destruct b; reflexivity.
  - cbn [dumps]. rewrite !append_assoc.
    change ("[" ++ ?t) with (String "[" t). cbn [scan_once].
    change (Ascii.eqb "[" quote) with false.
    change (Ascii.eqb "[" "{") with false.
    change (Ascii.eqb "[" "[") with true. cbv iota.
    cbn [size] in Hfuel.
    change ("]" ++ rest) with (String "]" rest).
    rewrite parse_array_dumps; [reflexivity | |].
    + apply dict_wf_list in Hwf.
      rewrite Forall_forall in IH, Hwf |- *. intros x Hx rest'.
      apply IH; [exact Hx | now apply Hwf |].
      assert (size x <= list_sum (map size l))
        by (apply list_sum_In, in_map, Hx).
      lia.
    + assert (H := length_le_sum_size size l size_pos). lia.
  - cbn [dumps]. rewrite !append_assoc.
    change ("{" ++ ?t) with (String "{" t). cbn [scan_once].
    change (Ascii.eqb "{" quote) with false.
    change (Ascii.eqb "{" "{") with true. cbv iota.
    cbn [size] in Hfuel.
    apply dict_wf_dict in Hwf. destruct Hwf as [Hkeys Hwf].
    change ("}" ++ rest) with (String "}" rest).
    rewrite parse_object_dumps; [reflexivity | exact Hkeys | |].
    + rewrite Forall_forall in IH, Hwf |- *. intros kv Hkv rest'.
      apply IH; [exact Hkv | now apply Hwf |].
      assert (size (snd kv) <= list_sum (map (fun kv => size (snd kv)) d))
        by (apply list_sum_In, (in_map (fun kv => size (snd kv))), Hkv).
      lia.
    + assert (H := length_le_sum_size (fun kv => size (snd kv)) d
                     (fun kv => size_pos (snd kv))).
      lia.
Qed.

Lemma append_nil (s : string) : s ++ EmptyString = s.
Proof. induction s as [| c s IH]; simpl; [reflexivity | now rewrite IH]. Qed.

Lemma length_concat_ge (strs : list string) (ns : list nat) :
  Forall2 (fun n s => n <= String.length s) ns strs ->
  list_sum ns <= String.length (String.concat ", " strs).
Proof.
  induction 1 as [| n s ns strs Hn Hrest IH]; simpl; [lia |].
  destruct strs as [| s' strs].
  - inversion Hrest; subst. simpl. lia.
  - rewrite !length_append. simpl in *. lia.
Qed.

(** The text of a value has at least as many characters as the value has
    nodes. *)
Lemma size_le_length (v : value) : size v <= String.length (dumps v).
Proof.
  induction v as [s | b | l IH | d IH] using value_ind.
  - simpl. lia.
  - destruct b; simpl; lia.
  - cbn [dumps size]. rewrite !length_append. simpl String.length.
    assert (list_sum (map size l)
            <= String.length (String.concat ", " (map dumps l))); [| lia].
    apply length_concat_ge.
    induction IH as [| x l Hx _ IHl]; simpl; constructor; assumption.
  - cbn [dumps size]. rewrite !length_append. simpl String.length.
    assert (list_sum (map (fun kv => size (snd kv)) d)
            <= String.length (String.concat ", " (map (item_text dumps) d)));
      [| lia].
    apply length_concat_ge.
    induction IH as [| kv d Hx _ IHd]; simpl; constructor; [| assumption].
    unfold item_text. rewrite !length_append. lia.
Qed.

(** Reading the JSON text of a value gives the value back: [loads] after
    [dumps] is the identity on every value whose dictionaries hold each key
    once. *)
Theorem loads_dumps (v : value) :
  dict_wf v = true -> loads (dumps v) = Some v.
Proof.
  intros Hwf. unfold loads.
  assert (Hs : starts_value (dumps v)).
  { rewrite <- (append_nil (dumps v)). apply dumps_starts_value. }
  rewrite (skip_ws_starts_value _ Hs).
  rewrite <- (append_nil (dumps v)) at 2.
  rewrite (scan_once_dumps v Hwf); [reflexivity |].
  assert (H := size_le_length v). lia.
Qed.

End JsonFacts.

(** The reader and the writer on small texts. *)
Example dumps_flags :
  Json.dumps (VList [VBool true; VList []; VDict []; VBool false])
  = "[true, [], {}, false]".
Proof. reflexivity. Qed.

Example dumps_escapes :
  Json.dumps (VStr (String (ascii_of_nat 10) (String (ascii_of_nat 233) "a\")))
  = String Json.quote ("\n\u00e9a\\" ++ String Json.quote EmptyString).
Proof. reflexivity. Qed.

Example loads_spaces :
  Json.loads " [ true ,false,[ ] , { } ] "
  = Some (VList [VBool true; VBool false; VList []; VDict []]).
Proof. reflexivity. Qed.

Example loads_trailing_comma : Json.loads "[true,]" = None.
Proof. reflexivity. Qed.

Example loads_number : Json.loads "[1]" = None.
Proof. reflexivity. Qed.

Example loads_trailing_text : Json.loads "true false" = None.
Proof. reflexivity. Qed.

Example dict_of_pairs_repeated_key :
  dict_of_pairs [("a", VBool true); ("b", VBool false); ("a", VList [])]
  = [("a", VList []); ("b", VBool false)].
Proof. reflexivity. Qed.

Example sklearn_page_text :
  String.length (Json.dumps sklearn_page) = 82 /\
  Json.loads (Json.dumps sklearn_page) = Some sklearn_page.
Proof. split; reflexivity. Qed.

(** C8: writing the tree rooted at [KT_API_MASTER] as JSON text and reading
    that text back gives a tree equal to the original, the order of every
    [children] and [generate] list (and of the keys of every node)
    included. *)
Theorem kt_api_master_roundtrip :
  Json.loads (Json.dumps KT_API_MASTER) = Some KT_API_MASTER.
Proof. apply JsonFacts.loads_dumps. reflexivity. Qed.

(** * Further invariants of the tree *)

(** A property shown for each node the traversal meets holds on the whole
    tree. *)
Lemma tree_Forall (P : value -> Prop) (root : value) :
  Forall P (nodes root) -> forall n, in_tree root n -> P n.
Proof.
  intros H n Hn. rewrite Forall_forall in H.
  apply H. now apply in_tree_nodes.
Qed.

(** Runs [tac] on each of the nodes of [KT_API_MASTER]. *)
Ltac each_node tac :=
  match goal with
  | |- forall n, in_tree KT_API_MASTER n -> @?P n =>
      apply (tree_Forall P KT_API_MASTER)
  end;
  let l := eval vm_compute in (nodes KT_API_MASTER) in
  change (nodes KT_API_MASTER) with l;
  repeat (apply Forall_cons; [tac |]);
  apply Forall_nil.

(** Finds an explicit item in an explicit list. *)
Ltac in_list := simpl; solve [repeat (first [left; reflexivity | right])].

Lemma oracle_in_tree : in_tree KT_API_MASTER ORACLE_MASTER.
Proof.
  apply in_tree_child with (p := KT_API_MASTER); [apply in_tree_root |].
  in_list.
Qed.

Lemma hypermodel_in_tree : in_tree KT_API_MASTER HYPERMODEL_MASTER.
Proof.
  apply in_tree_child with (p := KT_API_MASTER); [apply in_tree_root |].
  in_list.
Qed.

(** Every node of the tree has a [path] and a [title], both strings and
    neither empty. *)
Theorem node_path_title (n : value) :
  in_tree KT_API_MASTER n ->
  exists p t : string,
    dict_get "path" n = Some (VStr p) /\ dict_get "title" n = Some (VStr t) /\
    p <> EmptyString /\ t <> EmptyString.
Proof.
  revert n.
  each_node ltac:(do 2 eexists;
                  split; [reflexivity |]; split; [reflexivity |];
                  split; discriminate).
Qed.

Lemma node_path_title_witness :
  in_tree KT_API_MASTER sklearn_page /\
  exists p t : string,
    dict_get "path" sklearn_page = Some (VStr p) /\
    dict_get "title" sklearn_page = Some (VStr t) /\
    p <> EmptyString /\ t <> EmptyString.
Proof.
  split; [exact sklearn_in_tree |].
  apply (node_path_title sklearn_page). exact sklearn_in_tree.
Defined.

(** A node of the tree has one of two sets of keys and no other key: path,
    title, toc, children for a group, path, title, generate for a page, in
    this order. *)
Theorem node_keys (n : value) :
  in_tree KT_API_MASTER n ->
  keys n = ["path"; "title"; "toc"; "children"] \/
  keys n = ["path"; "title"; "generate"].
Proof.
  revert n.
  each_node ltac:(first [left; reflexivity | right; reflexivity]).
Qed.

Lemma node_keys_witness :
  in_tree KT_API_MASTER TUNER_MASTER /\
  (keys TUNER_MASTER = ["path"; "title"; "toc"; "children"] \/
   keys TUNER_MASTER = ["path"; "title"; "generate"]).
Proof.
  split; [exact tuner_in_tree |].
  apply (node_keys TUNER_MASTER). exact tuner_in_tree.
Defined.

(** The path of a group ends with its only slash; the path of a page has no
    slash. *)
Theorem path_slashes (n : value) :
  in_tree KT_API_MASTER n ->
  exists p : string,
    dict_get "path" n = Some (VStr p) /\
    if has_key "children" n
    then last_char p = Some "/"%char /\ count_char "/" p = 1
    else count_char "/" p = 0.
Proof.
  revert n.
  each_node ltac:(eexists; split; [reflexivity |];
                  first [split; reflexivity | reflexivity]).
Qed.

Lemma path_slashes_witness :
  in_tree KT_API_MASTER TUNER_MASTER /\
  exists p : string,
    dict_get "path" TUNER_MASTER = Some (VStr p) /\
    if has_key "children" TUNER_MASTER
    then last_char p = Some "/"%char /\ count_char "/" p = 1
    else count_char "/" p = 0.
Proof.
  split; [exact tuner_in_tree |].
  apply (path_slashes TUNER_MASTER). exact tuner_in_tree.
Defined.

(** No node lies more than two levels below the root: a node is the root,
    a child of the root, or a child of such a child, and then it has no
    children of its own. *)
Theorem tree_depth (n : value) :
  in_tree KT_API_MASTER n ->
  n = KT_API_MASTER \/
  In n (children_of KT_API_MASTER) \/
  exists p : value,
    In p (children_of KT_API_MASTER) /\ In n (children_of p) /\
    children_of n = [].
Proof.
  revert n.
  each_node ltac:(first
    [ left; reflexivity
    | right; left; in_list
    | right; right; exists TUNER_MASTER;
      split; [in_list |]; split; [in_list | reflexivity]
    | right; right; exists ORACLE_MASTER;
      split; [in_list |]; split; [in_list | reflexivity]
    | right; right; exists HYPERMODEL_MASTER;
      split; [in_list |]; split; [in_list | reflexivity] ]).
Qed.

Lemma tree_depth_witness :
  in_tree KT_API_MASTER sklearn_page /\
  (sklearn_page = KT_API_MASTER \/
   In sklearn_page (children_of KT_API_MASTER) \/
   exists p : value,
     In p (children_of KT_API_MASTER) /\ In sklearn_page (children_of p) /\
     children_of sklearn_page = []).
Proof.
  split; [exact sklearn_in_tree |].
  apply (tree_depth sklearn_page). exact sklearn_in_tree.
Defined.

(** The tree is the root, its hyperparameters page and the three named
    sub-trees, and nothing else: a node belongs to the tree of
    [KT_API_MASTER] exactly when it is the root, a page listed by the root
    itself, or a node of [TUNER_MASTER], [ORACLE_MASTER] or
    [HYPERMODEL_MASTER]. *)
Theorem tree_of_subtrees (n : value) :
  in_tree KT_API_MASTER n <->
  n = KT_API_MASTER \/
  (In n (children_of KT_API_MASTER) /\ has_key "children" n = false) \/
  in_tree TUNER_MASTER n \/
  in_tree ORACLE_MASTER n \/
  in_tree HYPERMODEL_MASTER n.
Proof.
  split.
  - revert n.
    each_node ltac:(
      let below sub :=
        first [ apply in_tree_root
              | apply in_tree_child with (p := sub);
                [apply in_tree_root | in_list] ] in
      first
        [ left; reflexivity
        | right; left; split; [in_list | reflexivity]
        | right; right; left; below TUNER_MASTER
        | right; right; right; left; below ORACLE_MASTER
        | right; right; right; right; below HYPERMODEL_MASTER ]).
  - intros [-> | [[H _] | [H | [H | H]]]].
    + apply in_tree_root.
    + exact (in_tree_child _ _ _ (in_tree_root _) H).
    + exact (in_tree_trans _ _ _ tuner_in_tree H).
    + exact (in_tree_trans _ _ _ oracle_in_tree H).
    + exact (in_tree_trans _ _ _ hypermodel_in_tree H).
Qed.

(** No symbol is listed twice, neither on one page nor on two pages: the
    thirty-nine symbols of the tree are pairwise distinct. *)
Theorem symbols_distinct :
  NoDup (symbols KT_API_MASTER) /\
  List.length (symbols KT_API_MASTER) = 39.
Proof.
  split; [| reflexivity].
  apply (NoDup_map_inv Some). apply distinctb_NoDup. reflexivity.
Qed.



(** Every symbol of every page is a dotted path: at least two segments
    between dots, each of them an identifier. *)
Theorem symbols_dotted_paths (n x : value) :
  in_tree KT_API_MASTER n ->
  In x (generate_of n) ->
  exists s : string,
    x = VStr s /\
    2 <= List.length (split_dots s) /\
    forallb is_identifier (split_dots s) = true.
Proof.
  intros Hn. revert x. revert n Hn.
  each_node ltac:(
    intros x Hx; simpl in Hx;
    repeat (destruct Hx as [<- | Hx];
            [eexists; split; [reflexivity |];
             split; [vm_compute; repeat constructor | reflexivity] |]);
    destruct Hx).
Qed.

Lemma symbols_dotted_paths_witness :
  in_tree KT_API_MASTER sklearn_page /\
  In (VStr "kerastuner.tuners.Sklearn") (generate_of sklearn_page) /\
  exists s : string,
    VStr "kerastuner.tuners.Sklearn" = VStr s /\
    2 <= List.length (split_dots s) /\
    forallb is_identifier (split_dots s) = true.
Proof.
  split; [exact sklearn_in_tree |].
  split; [left; reflexivity |].
  apply (symbols_dotted_paths sklearn_page);
    [exact sklearn_in_tree | left; reflexivity].
Defined.

(** The titles of the seventeen nodes are pairwise distinct, also where two
    pages share a path. *)
Theorem titles_distinct :
  NoDup (map (dict_get "title") (nodes KT_API_MASTER)).
Proof. apply distinctb_NoDup. reflexivity. Qed.

Example split_dots_sklearn :
  split_dots "kerastuner.tuners.Sklearn" = ["kerastuner"; "tuners"; "Sklearn"].
Proof. reflexivity. Qed.

Example split_dots_edges :
  split_dots EmptyString = [EmptyString] /\
  split_dots ".a." = [EmptyString; "a"; EmptyString] /\
  forallb is_identifier (split_dots "a..b") = false /\
  is_identifier "9lives" = false /\
  is_identifier "_get2" = true.
Proof. repeat split. Qed.

Example count_last_char :
  count_char "/" "a/b/" = 2 /\ last_char "a/b/" = Some "/"%char /\
  last_char EmptyString = None.
Proof. repeat split. Qed.
